(** * Verification of python/build/libs.py (MPD third-party library registry)

    The module [build.libs] is a table of constructor calls: each top-level
    assignment binds a name to a project object built by one of the classes
    imported at the top of the file.  This development embeds the calls as
    they are written (positional arguments, keyword arguments, literal
    values), binds them to the fields of a dependency descriptor, and proves
    the properties the specification states about the table.  The engine that
    consumes the table (fetching, extraction, the build adapters) lives in
    modules that are not part of the sources at hand; where a property needs
    it, it is modelled from the specification and marked as such. *)

From Stdlib Require Import String Ascii List Bool Arith Lia.
From Stdlib.Strings Require Import Byte.
From stdpp Require Import base option list strings gmap.

(** ** Python literals and constructor calls *)

(** The classes imported by [libs.py], lines 4 to 8. *)
Inductive project_class : Set :=
  | Project
  | ZlibProject
  | CmakeProject
  | AutotoolsProject
  | FfmpegProject.

#[global] Instance project_class_eq_dec : EqDecision project_class.
Proof. solve_decision. Defined.

(** The literal values that occur as arguments in [libs.py]: strings, the
    boolean [True], a tuple of strings and lists of strings. *)
Inductive pyval : Set :=
  | PyStr (s : string)
  | PyBool (b : bool)
  | PyTuple (items : list string)
  | PyList (items : list string).

#[global] Instance pyval_eq_dec : EqDecision pyval.
Proof. solve_decision. Defined.

(** A constructor call [Class(a1, ..., an, k1=v1, ..., km=vm)]. *)
Record call : Set := Call {
  ctor : project_class;
  args : list pyval;
  kwargs : list (string * pyval)
}.

(** ** The table, one definition per assignment of [libs.py] *)

Definition libsamplerate : call :=
  {| ctor := CmakeProject;
     args := [
      PyStr "https://github.com/libsndfile/libsamplerate/releases/download/0.2.2/libsamplerate-0.2.2.tar.xz";
      PyStr "97c010fc25156c33cddc272c1935afab";
      PyStr "lib/libsamplerate.a";
      PyList [
        "-DBUILD_SHARED_LIBS=OFF";
        "-DINSTALL_DOCS=OFF";
        "-DINSTALL_CMAKE_PACKAGE_MODULE=OFF"]];
     kwargs := [] |}.

Definition zlib : call :=
  {| ctor := ZlibProject;
     args := [
      PyTuple [
        "http://zlib.net/zlib-1.3.1.tar.xz";
        "https://github.com/madler/zlib/releases/download/v1.3.1/zlib-1.3.1.tar.xz"];
      PyStr "38ef96b8dfe510d42707d9c781877914792541133e1870841463bfa73f883e32";
      PyStr "lib/libz.a"];
     kwargs := [] |}.

Definition libmodplug : call :=
  {| ctor := AutotoolsProject;
     args := [
      PyStr "https://downloads.sourceforge.net/modplug-xmms/libmodplug/0.8.9.0/libmodplug-0.8.9.0.tar.gz";
      PyStr "457ca5a6c179656d66c01505c0d95fafaead4329b9dbaa0f997d00a3508ad9de";
      PyStr "lib/libmodplug.a";
      PyList [
        "--disable-shared";
        "--enable-static"]];
     kwargs := [
      ("patches", PyStr "src/lib/modplug/patches")] |}.

Definition libopenmpt : call :=
  {| ctor := AutotoolsProject;
     args := [
      PyStr "https://lib.openmpt.org/files/libopenmpt/src/libopenmpt-0.7.4+release.autotools.tar.gz";
      PyStr "1600f9335eae3904089a6286f525812961c54ce36a05dfe6eeaa576dd9328f3f";
      PyStr "lib/libopenmpt.a";
      PyList [
        "--disable-shared";
        "--enable-static";
        "--disable-openmpt123";
        "--disable-examples";
        "--disable-tests";
        "--disable-doxygen-doc";
        "--without-mpg123";
        "--without-ogg";
        "--without-vorbis";
        "--without-vorbisfile";
        "--without-portaudio";
        "--without-portaudiocpp";
        "--without-sndfile";
        "--without-flac"]];
     kwargs := [
      ("base", PyStr "libopenmpt-0.7.3+release.autotools")] |}.

Definition wildmidi : call :=
  {| ctor := CmakeProject;
     args := [
      PyStr "https://github.com/Mindwerks/wildmidi/releases/download/wildmidi-0.4.5/wildmidi-0.4.5.tar.gz";
      PyStr "d5e7bef00a7aa47534a53d43b1265f8d3d27f6a28e7f563c1cdf02ff4fa35b99";
      PyStr "lib/libWildMidi.a";
      PyList [
        "-DBUILD_SHARED_LIBS=OFF";
        "-DWANT_PLAYER=OFF";
        "-DWANT_STATIC=ON"]];
     kwargs := [] |}.

Definition gme : call :=
  {| ctor := CmakeProject;
     args := [
      PyStr "https://bitbucket.org/mpyne/game-music-emu/downloads/game-music-emu-0.6.3.tar.xz";
      PyStr "aba34e53ef0ec6a34b58b84e28bf8cfbccee6585cebca25333604c35db3e051d";
      PyStr "lib/libgme.a";
      PyList [
        "-DBUILD_SHARED_LIBS=OFF";
        "-DENABLE_UBSAN=OFF";
        "-DZLIB_INCLUDE_DIR=OFF";
        "-DCMAKE_DISABLE_FIND_PACKAGE_SDL2=ON"]];
     kwargs := [] |}.

Definition ffmpeg : call :=
  {| ctor := FfmpegProject;
     args := [
      PyStr "http://ffmpeg.org/releases/ffmpeg-6.1.1.tar.xz";
      PyStr "8684f4b00f94b85461884c3719382f1261f0d9eb3d59640a1f4ac0873616f968";
      PyStr "lib/libavcodec.a";
      PyList [
        "--disable-shared";
        "--enable-static";
        "--enable-gpl";
        "--enable-small";
        "--disable-pthreads";
        "--disable-programs";
        "--disable-doc";
        "--disable-avdevice";
        "--disable-swresample";
        "--disable-swscale";
        "--disable-postproc";
        "--disable-avfilter";
        "--disable-faan";
        "--disable-pixelutils";
        "--disable-network";
        "--disable-encoders";
        "--disable-hwaccels";
        "--disable-muxers";
        "--disable-protocols";
        "--disable-devices";
        "--disable-filters";
        "--disable-v4l2_m2m";
        "--disable-sdl2";
        "--disable-vulkan";
        "--disable-xlib";
        "--disable-parser=bmp";
        "--disable-parser=cavsvideo";
        "--disable-parser=dvbsub";
        "--disable-parser=dvdsub";
        "--disable-parser=dvd_nav";
        "--disable-parser=flac";
        "--disable-parser=g729";
        "--disable-parser=gsm";
        "--disable-parser=h261";
        "--disable-parser=h263";
        "--disable-parser=h264";
        "--disable-parser=hevc";
        "--disable-parser=jpeg2000";
        "--disable-parser=mjpeg";
        "--disable-parser=mlp";
        "--disable-parser=mpeg4video";
        "--disable-parser=mpegvideo";
        "--disable-parser=opus";
        "--disable-parser=qoi";
        "--disable-parser=rv30";
        "--disable-parser=rv40";
        "--disable-parser=vc1";
        "--disable-parser=vp3";
        "--disable-parser=vp8";
        "--disable-parser=vp9";
        "--disable-parser=png";
        "--disable-parser=pnm";
        "--disable-parser=webp";
        "--disable-parser=xma";
        "--disable-demuxer=aqtitle";
        "--disable-demuxer=ass";
        "--disable-demuxer=bethsoftvid";
        "--disable-demuxer=bink";
        "--disable-demuxer=cavsvideo";
        "--disable-demuxer=cdxl";
        "--disable-demuxer=dvbsub";
        "--disable-demuxer=dvbtxt";
        "--disable-demuxer=h261";
        "--disable-demuxer=h263";
        "--disable-demuxer=h264";
        "--disable-demuxer=ico";
        "--disable-demuxer=image2";
        "--disable-demuxer=image2pipe";
        "--disable-demuxer=image_bmp_pipe";
        "--disable-demuxer=image_cri_pipe";
        "--disable-demuxer=image_dds_pipe";
        "--disable-demuxer=image_dpx_pipe";
        "--disable-demuxer=image_exr_pipe";
        "--disable-demuxer=image_gem_pipe";
        "--disable-demuxer=image_gif_pipe";
        "--disable-demuxer=image_j2k_pipe";
        "--disable-demuxer=image_jpeg_pipe";
        "--disable-demuxer=image_jpegls_pipe";
        "--disable-demuxer=image_jpegxl_pipe";
        "--disable-demuxer=image_pam_pipe";
        "--disable-demuxer=image_pbm_pipe";
        "--disable-demuxer=image_pcx_pipe";
        "--disable-demuxer=image_pfm_pipe";
        "--disable-demuxer=image_pgm_pipe";
        "--disable-demuxer=image_pgmyuv_pipe";
        "--disable-demuxer=image_pgx_pipe";
        "--disable-demuxer=image_phm_pipe";
        "--disable-demuxer=image_photocd_pipe";
        "--disable-demuxer=image_pictor_pipe";
        "--disable-demuxer=image_png_pipe";
        "--disable-demuxer=image_ppm_pipe";
        "--disable-demuxer=image_psd_pipe";
        "--disable-demuxer=image_qdraw_pipe";
        "--disable-demuxer=image_qoi_pipe";
        "--disable-demuxer=image_sgi_pipe";
        "--disable-demuxer=image_sunrast_pipe";
        "--disable-demuxer=image_svg_pipe";
        "--disable-demuxer=image_tiff_pipe";
        "--disable-demuxer=image_vbn_pipe";
        "--disable-demuxer=image_webp_pipe";
        "--disable-demuxer=image_xbm_pipe";
        "--disable-demuxer=image_xpm_pipe";
        "--disable-demuxer=image_xwd_pipe";
        "--disable-demuxer=jacosub";
        "--disable-demuxer=lrc";
        "--disable-demuxer=microdvd";
        "--disable-demuxer=mjpeg";
        "--disable-demuxer=mjpeg_2000";
        "--disable-demuxer=mpegps";
        "--disable-demuxer=mpegvideo";
        "--disable-demuxer=mpl2";
        "--disable-demuxer=mpsub";
        "--disable-demuxer=pjs";
        "--disable-demuxer=rawvideo";
        "--disable-demuxer=realtext";
        "--disable-demuxer=sami";
        "--disable-demuxer=scc";
        "--disable-demuxer=srt";
        "--disable-demuxer=stl";
        "--disable-demuxer=subviewer";
        "--disable-demuxer=subviewer1";
        "--disable-demuxer=swf";
        "--disable-demuxer=tedcaptions";
        "--disable-demuxer=vobsub";
        "--disable-demuxer=vplayer";
        "--disable-demuxer=webm_dash_manifest";
        "--disable-demuxer=webvtt";
        "--disable-demuxer=yuv4mpegpipe";
        "--disable-decoder=flac";
        "--disable-decoder=opus";
        "--disable-decoder=vorbis";
        "--disable-decoder=atrac1";
        "--disable-decoder=atrac3";
        "--disable-decoder=atrac3al";
        "--disable-decoder=atrac3p";
        "--disable-decoder=atrac3pal";
        "--disable-decoder=binkaudio_dct";
        "--disable-decoder=binkaudio_rdft";
        "--disable-decoder=bmv_audio";
        "--disable-decoder=dsicinaudio";
        "--disable-decoder=dvaudio";
        "--disable-decoder=metasound";
        "--disable-decoder=paf_audio";
        "--disable-decoder=ra_144";
        "--disable-decoder=ra_288";
        "--disable-decoder=ralf";
        "--disable-decoder=qdm2";
        "--disable-decoder=qdmc";
        "--disable-decoder=acelp_kelvin";
        "--disable-decoder=agm";
        "--disable-decoder=aic";
        "--disable-decoder=alias_pix";
        "--disable-decoder=ansi";
        "--disable-decoder=apng";
        "--disable-decoder=arbc";
        "--disable-decoder=argo";
        "--disable-decoder=ass";
        "--disable-decoder=asv1";
        "--disable-decoder=asv2";
        "--disable-decoder=aura";
        "--disable-decoder=aura2";
        "--disable-decoder=avrn";
        "--disable-decoder=avrp";
        "--disable-decoder=avui";
        "--disable-decoder=ayuv";
        "--disable-decoder=bethsoftvid";
        "--disable-decoder=bfi";
        "--disable-decoder=bink";
        "--disable-decoder=bintext";
        "--disable-decoder=bitpacked";
        "--disable-decoder=bmp";
        "--disable-decoder=bmv_video";
        "--disable-decoder=brender_pix";
        "--disable-decoder=c93";
        "--disable-decoder=cavs";
        "--disable-decoder=ccaption";
        "--disable-decoder=cdgraphics";
        "--disable-decoder=cdtoons";
        "--disable-decoder=cdxl";
        "--disable-decoder=cfhd";
        "--disable-decoder=cinepak";
        "--disable-decoder=clearvideo";
        "--disable-decoder=cljr";
        "--disable-decoder=cllc";
        "--disable-decoder=cpia";
        "--disable-decoder=cscd";
        "--disable-decoder=cyuv";
        "--disable-decoder=dds";
        "--disable-decoder=dirac";
        "--disable-decoder=dnxhd";
        "--disable-decoder=dpx";
        "--disable-decoder=dsicinvideo";
        "--disable-decoder=dvbsub";
        "--disable-decoder=dvdsub";
        "--disable-decoder=dvvideo";
        "--disable-decoder=dxa";
        "--disable-decoder=dxtory";
        "--disable-decoder=dxv";
        "--disable-decoder=eacmv";
        "--disable-decoder=eamad";
        "--disable-decoder=eatgq";
        "--disable-decoder=eatgv";
        "--disable-decoder=eatqi";
        "--disable-decoder=eightbps";
        "--disable-decoder=escape124";
        "--disable-decoder=escape130";
        "--disable-decoder=exr";
        "--disable-decoder=ffv1";
        "--disable-decoder=ffvhuff";
        "--disable-decoder=ffwavesynth";
        "--disable-decoder=fic";
        "--disable-decoder=fits";
        "--disable-decoder=flashsv";
        "--disable-decoder=flashsv2";
        "--disable-decoder=flic";
        "--disable-decoder=flv";
        "--disable-decoder=fmvc";
        "--disable-decoder=fraps";
        "--disable-decoder=fourxm";
        "--disable-decoder=frwu";
        "--disable-decoder=g2m";
        "--disable-decoder=gdv";
        "--disable-decoder=gem";
        "--disable-decoder=gif";
        "--disable-decoder=h261";
        "--disable-decoder=h263";
        "--disable-decoder=h263i";
        "--disable-decoder=h263p";
        "--disable-decoder=h264";
        "--disable-decoder=hap";
        "--disable-decoder=hevc";
        "--disable-decoder=hnm4_video";
        "--disable-decoder=hq_hqa";
        "--disable-decoder=hqx";
        "--disable-decoder=huffyuv";
        "--disable-decoder=hymt";
        "--disable-decoder=idcin";
        "--disable-decoder=idf";
        "--disable-decoder=iff_ilbm";
        "--disable-decoder=imm4";
        "--disable-decoder=indeo2";
        "--disable-decoder=indeo3";
        "--disable-decoder=indeo4";
        "--disable-decoder=indeo5";
        "--disable-decoder=interplay_video";
        "--disable-decoder=ipu";
        "--disable-decoder=jacosub";
        "--disable-decoder=jpeg2000";
        "--disable-decoder=jpegls";
        "--disable-decoder=jv";
        "--disable-decoder=kgv1";
        "--disable-decoder=kmvc";
        "--disable-decoder=lagarith";
        "--disable-decoder=loco";
        "--disable-decoder=lscr";
        "--disable-decoder=m101";
        "--disable-decoder=magicyuv";
        "--disable-decoder=mdec";
        "--disable-decoder=microdvd";
        "--disable-decoder=mimic";
        "--disable-decoder=mjpeg";
        "--disable-decoder=mmvideo";
        "--disable-decoder=mpl2";
        "--disable-decoder=mobiclip";
        "--disable-decoder=motionpixels";
        "--disable-decoder=movtext";
        "--disable-decoder=mpeg1video";
        "--disable-decoder=mpeg2video";
        "--disable-decoder=mpeg4";
        "--disable-decoder=mpegvideo";
        "--disable-decoder=msa1";
        "--disable-decoder=mscc";
        "--disable-decoder=msmpeg4_crystalhd";
        "--disable-decoder=msmpeg4v1";
        "--disable-decoder=msmpeg4v2";
        "--disable-decoder=msmpeg4v3";
        "--disable-decoder=msp2";
        "--disable-decoder=msrle";
        "--disable-decoder=mss1";
        "--disable-decoder=msvideo1";
        "--disable-decoder=mszh";
        "--disable-decoder=mts2";
        "--disable-decoder=mv30";
        "--disable-decoder=mvc1";
        "--disable-decoder=mvc2";
        "--disable-decoder=mvdv";
        "--disable-decoder=mvha";
        "--disable-decoder=mwsc";
        "--disable-decoder=notchlc";
        "--disable-decoder=nuv";
        "--disable-decoder=on2avc";
        "--disable-decoder=paf_video";
        "--disable-decoder=pam";
        "--disable-decoder=pbm";
        "--disable-decoder=pcx";
        "--disable-decoder=pdv";
        "--disable-decoder=pfm";
        "--disable-decoder=pgm";
        "--disable-decoder=pgmyuv";
        "--disable-decoder=pgssub";
        "--disable-decoder=pgx";
        "--disable-decoder=phm";
        "--disable-decoder=photocd";
        "--disable-decoder=png";
        "--disable-decoder=pictor";
        "--disable-decoder=pixlet";
        "--disable-decoder=pjs";
        "--disable-decoder=ppm";
        "--disable-decoder=prores";
        "--disable-decoder=prosumer";
        "--disable-decoder=psd";
        "--disable-decoder=ptx";
        "--disable-decoder=qdraw";
        "--disable-decoder=qoi";
        "--disable-decoder=qpeg";
        "--disable-decoder=qtrle";
        "--disable-decoder=rawvideo";
        "--disable-decoder=r10k";
        "--disable-decoder=r210";
        "--disable-decoder=rasc";
        "--disable-decoder=realtext";
        "--disable-decoder=rl2";
        "--disable-decoder=rpza";
        "--disable-decoder=roq";
        "--disable-decoder=roq_dpcm";
        "--disable-decoder=rscc";
        "--disable-decoder=rv10";
        "--disable-decoder=rv20";
        "--disable-decoder=rv30";
        "--disable-decoder=rv40";
        "--disable-decoder=sami";
        "--disable-decoder=sanm";
        "--disable-decoder=scpr";
        "--disable-decoder=screenpresso";
        "--disable-decoder=sga";
        "--disable-decoder=sgi";
        "--disable-decoder=sgirle";
        "--disable-decoder=sheervideo";
        "--disable-decoder=simbiosis_imx";
        "--disable-decoder=smc";
        "--disable-decoder=snow";
        "--disable-decoder=speedhq";
        "--disable-decoder=srgc";
        "--disable-decoder=srt";
        "--disable-decoder=ssa";
        "--disable-decoder=stl";
        "--disable-decoder=subrip";
        "--disable-decoder=subviewer";
        "--disable-decoder=subviewer1";
        "--disable-decoder=sunrast";
        "--disable-decoder=svq1";
        "--disable-decoder=svq3";
        "--disable-decoder=targa";
        "--disable-decoder=targa_y216";
        "--disable-decoder=text";
        "--disable-decoder=tiff";
        "--disable-decoder=tiertexseqvideo";
        "--disable-decoder=tmv";
        "--disable-decoder=truemotion1";
        "--disable-decoder=truemotion2";
        "--disable-decoder=truemotion2rt";
        "--disable-decoder=tscc";
        "--disable-decoder=tscc2";
        "--disable-decoder=twinvq";
        "--disable-decoder=txd";
        "--disable-decoder=ulti";
        "--disable-decoder=utvideo";
        "--disable-decoder=v210";
        "--disable-decoder=v210x";
        "--disable-decoder=v308";
        "--disable-decoder=v408";
        "--disable-decoder=v410";
        "--disable-decoder=vb";
        "--disable-decoder=vble";
        "--disable-decoder=vbn";
        "--disable-decoder=vc1";
        "--disable-decoder=vcr1";
        "--disable-decoder=vmdvideo";
        "--disable-decoder=vmnc";
        "--disable-decoder=vp3";
        "--disable-decoder=vp5";
        "--disable-decoder=vp6";
        "--disable-decoder=vp7";
        "--disable-decoder=vp8";
        "--disable-decoder=vp9";
        "--disable-decoder=vplayer";
        "--disable-decoder=vqa";
        "--disable-decoder=webvtt";
        "--disable-decoder=wcmv";
        "--disable-decoder=wmv1";
        "--disable-decoder=wmv2";
        "--disable-decoder=wmv3";
        "--disable-decoder=wnv1";
        "--disable-decoder=wrapped_avframe";
        "--disable-decoder=xan_wc3";
        "--disable-decoder=xan_wc4";
        "--disable-decoder=xbin";
        "--disable-decoder=xbm";
        "--disable-decoder=xface";
        "--disable-decoder=xl";
        "--disable-decoder=xpm";
        "--disable-decoder=xsub";
        "--disable-decoder=xwd";
        "--disable-decoder=y41p";
        "--disable-decoder=ylc";
        "--disable-decoder=yop";
        "--disable-decoder=yuv4";
        "--disable-decoder=zero12v";
        "--disable-decoder=zerocodec";
        "--disable-decoder=zlib";
        "--disable-decoder=zmbv";
        "--disable-bsf=av1_frame_merge";
        "--disable-bsf=av1_frame_split";
        "--disable-bsf=av1_metadata";
        "--disable-bsf=dts2pts";
        "--disable-bsf=h264_metadata";
        "--disable-bsf=h264_mp4toannexb";
        "--disable-bsf=h264_redundant_pps";
        "--disable-bsf=hevc_metadata";
        "--disable-bsf=hevc_mp4toannexb";
        "--disable-bsf=mjpeg2jpeg";
        "--disable-bsf=opus_metadata";
        "--disable-bsf=pgs_frame_merge";
        "--disable-bsf=text2movsub";
        "--disable-bsf=vp9_metadata";
        "--disable-bsf=vp9_raw_reorder";
        "--disable-bsf=vp9_superframe";
        "--disable-bsf=vp9_superframe_split"]];
     kwargs := [] |}.

Definition libnfs : call :=
  {| ctor := AutotoolsProject;
     args := [
      PyStr "https://github.com/sahlberg/libnfs/archive/libnfs-5.0.3.tar.gz";
      PyStr "d945cb4f4c8f82ee1f3640893a168810f794a28e1010bb007ec5add345e9df3e";
      PyStr "lib/libnfs.a";
      PyList [
        "--disable-shared";
        "--enable-static";
        "--disable-debug";
        "--disable-werror";
        "--disable-utils";
        "--disable-examples"]];
     kwargs := [
      ("base", PyStr "libnfs-libnfs-5.0.3");
      ("autoreconf", PyBool true)] |}.

(** The module's bindings in source order. *)
Definition libs : list (string * call) :=
  [ ("libsamplerate", libsamplerate);
    ("zlib", zlib);
    ("libmodplug", libmodplug);
    ("libopenmpt", libopenmpt);
    ("wildmidi", wildmidi);
    ("gme", gme);
    ("ffmpeg", ffmpeg);
    ("libnfs", libnfs) ].

(** ** Dependency descriptors *)

(** Modelled from the spec: the parameter lists of the project classes
    ([build/project.py] and the adapter modules are not among the sources),
    as the fields a call binds.  The keyword parameters [base], [patches]
    and [autoreconf] are spelled out in [libs.py]; the positional parameters
    are not named there.  Section 3 orders a descriptor's fields as source
    locations, integrity digest, declared artifact path and configuration
    arguments, which is the order of the positional arguments of every call
    of the table; the three keyword parameters are optional and default to
    absent. *)
Record project : Set := {
  kind : project_class;
  locations : list string;
  digest : string;
  artifact : string;
  arguments : option (list string);
  patches : option pyval;
  base : option string;
  autoreconf : bool
}.

(** Keyword lookup; Python rejects a repeated keyword, so the first match is
    the only one. *)
Fixpoint keyword (k : string) (kws : list (string * pyval)) : option pyval :=
  match kws with
  | [] => None
  | (k', v) :: rest => if decide (k' = k) then Some v else keyword k rest
  end.

Definition known_keywords : list string := ["base"; "patches"; "autoreconf"].

(** A location argument is one URL or a sequence of mirror URLs. *)
Definition bind_locations (v : pyval) : option (list string) :=
  match v with
  | PyStr u => Some [u]
  | PyTuple us | PyList us => Some us
  | PyBool _ => None
  end.

Definition bind_arguments (rest : list pyval) : option (option (list string)) :=
  match rest with
  | [] => Some None
  | [PyList flags] => Some (Some flags)
  | _ => None
  end.

Definition bind_base (kws : list (string * pyval)) : option (option string) :=
  match keyword "base" kws with
  | None => Some None
  | Some (PyStr b) => Some (Some b)
  | Some _ => None
  end.

Definition bind_autoreconf (kws : list (string * pyval)) : option bool :=
  match keyword "autoreconf" kws with
  | None => Some false
  | Some (PyBool b) => Some b
  | Some _ => None
  end.

(** Modelled from the spec: the binding of a call's arguments to the
    parameters above (the constructors are not among the sources); [None]
    stands for the [TypeError] a call with ill-shaped arguments would
    raise. *)
Definition bind (c : call) : option project :=
  match args c with
  | loc :: PyStr dg :: PyStr art :: rest =>
      locs ← bind_locations loc;
      flags ← bind_arguments rest;
      b ← bind_base (kwargs c);
      ar ← bind_autoreconf (kwargs c);
      if forallb (λ kv, bool_decide (kv.1 ∈ known_keywords)) (kwargs c)
      then Some {| kind := ctor c; locations := locs; digest := dg;
                   artifact := art; arguments := flags;
                   patches := keyword "patches" (kwargs c);
                   base := b; autoreconf := ar |}
      else None
  | _ => None
  end.

(** The registry: every binding of the module, by name, in source order. *)
Definition registry : list (string * project) :=
  omap (λ nc, d ← bind nc.2; Some (nc.1, d)) libs.

Definition descriptor (name : string) : option project :=
  snd <$> find (λ nd, bool_decide (nd.1 = name)) registry.

(** ** Strings: digests and paths *)

Definition is_hex_digit (c : ascii) : bool :=
  let n := nat_of_ascii c in
  ((48 <=? n) && (n <=? 57)) || ((97 <=? n) && (n <=? 102))
  || ((65 <=? n) && (n <=? 70)).

Definition is_hex (s : string) : bool :=
  forallb is_hex_digit (list_ascii_of_string s).

(** Hex lengths of the two digest algorithms the table uses: 128 and 256
    bits at four bits per character. *)
Definition md5_hex_length : nat := 128 / 4.
Definition sha256_hex_length : nat := 256 / 4.

Definition is_relative (p : string) : bool := negb (String.prefix "/" p).

Fixpoint strip_prefix (p s : string) : option string :=
  match p, s with
  | EmptyString, _ => Some s
  | String a p', String b s' =>
      if decide (a = b) then strip_prefix p' s' else None
  | String _ _, EmptyString => None
  end.

Fixpoint strip_suffix (suf s : string) : option string :=
  if decide (s = suf) then Some EmptyString
  else match s with
       | EmptyString => None
       | String c s' => String c <$> strip_suffix suf s'
       end.

Definition has_slash (s : string) : bool :=
  existsb (λ c, bool_decide (c = "/"%char)) (list_ascii_of_string s).

(** [os.path.basename]: what follows the last slash. *)
Fixpoint basename (p : string) : string :=
  match p with
  | EmptyString => EmptyString
  | String c p' =>
      if has_slash p' then basename p'
      else if decide (c = "/"%char) then p' else p
  end.

(** The name [<name>] of a path of the static-library form [lib/<name>.a]:
    a single non-empty path component between the directory and the
    extension. *)
Definition static_library_name (p : string) : option string :=
  n ← strip_prefix "lib/" p ≫= strip_suffix ".a";
  if bool_decide (n = EmptyString) || has_slash n then None else Some n.

(** ** The engine that consumes the table *)

(** *** Digest algorithms *)

(** Modelled from the spec: the digest algorithms (the verification module
    is not among the sources); section 3 asks for at least two, told apart
    by the length of the digest. *)
Inductive hash_algorithm : Set := MD5 | SHA256.

(** Modelled from the spec: the choice of the digest algorithm (the
    verification module is not among the sources).  Section 3: the algorithm
    is inferred from the digest's length; the two lengths below are the ones
    the table uses. *)
Definition guess_hash (dg : string) : option hash_algorithm :=
  if decide (String.length dg = md5_hex_length) then Some MD5
  else if decide (String.length dg = sha256_hex_length) then Some SHA256
  else None.

(** *** Source fetcher *)

(** Modelled from the spec: the two errors of a fetch in the taxonomy of
    section 7 (the download module is not among the sources). *)
Inductive fetch_error : Set := NetworkError | IntegrityError.

(** Modelled from the spec: the fetcher's state (the download module is not
    among the sources): the digest-keyed download cache of section 4.1 and
    the locations a transfer was attempted from, oldest first. *)
Record fetcher : Type := {
  cache : gmap string (list byte);
  attempted : list string
}.

Section Fetcher.
(** The network: [None] is a transport failure (DNS, connection, HTTP
    error), [Some content] the bytes a location serves. *)
Variable transport : string → option (list byte).
(** The digest of a byte sequence under an algorithm, as lower-case hex. *)
Variable file_digest : hash_algorithm → list byte → string.

(** Modelled from the spec: the integrity check of section 4.1 (the
    verification module is not among the sources): the digest is recomputed
    over the downloaded bytes, under the algorithm the declared digest's
    length names, and compared with the declared one. *)
Definition verify (content : list byte) (dg : string) : bool :=
  match guess_hash dg with
  | Some alg => bool_decide (file_digest alg content = dg)
  | None => false
  end.

(** Modelled from the spec: the transfer loop of section 4.1 (the download
    module is not among the sources).  Locations are tried in declared
    order; a transport failure advances to the next one; running out of
    locations is a [NetworkError]; the first successful transfer is
    verified, a mismatch is a fatal [IntegrityError] and the content is
    not cached, a match stores the content under its digest. *)
Fixpoint transfer (locs : list string) (dg : string) (st : fetcher)
  : (fetch_error + list byte) * fetcher :=
  match locs with
  | [] => (inl NetworkError, st)
  | u :: rest =>
      let st' := {| cache := cache st; attempted := attempted st ++ [u] |} in
      match transport u with
      | None => transfer rest dg st'
      | Some content =>
          if verify content dg
          then (inr content,
                {| cache := <[dg := content]> (cache st');
                   attempted := attempted st' |})
          else (inl IntegrityError, st')
      end
  end.

(** Modelled from the spec: [fetch(locations, digest)] of section 4.1.  A
    cached entry for the digest short-circuits the network entirely. *)
Definition fetch (locs : list string) (dg : string) (st : fetcher)
  : (fetch_error + list byte) * fetcher :=
  match cache st !! dg with
  | Some content => (inr content, st)
  | None => transfer locs dg st
  end.
End Fetcher.

(** *** Archive extractor *)

(** Modelled from the spec: the extraction error of section 7. *)
Inductive extraction_error : Set := ExtractionError.

(** Modelled from the spec: the extensions an archive filename ends with
    ([build/project.py] is not among the sources): tar archives, plain or
    compressed, and zip archives. *)
Definition archive_extensions : list string :=
  [".tar.gz"; ".tar.bz2"; ".tar.xz"; ".tar.lzma"; ".tar"; ".zip"].

(** The filename without the first of the extensions it ends with. *)
Fixpoint first_stem (exts : list string) (filename : string) : option string :=
  match exts with
  | [] => None
  | e :: rest =>
      match strip_suffix e filename with
      | Some stem => if decide (stem = EmptyString) then first_stem rest filename
                     else Some stem
      | None => first_stem rest filename
      end
  end.

(** Modelled from the spec: the directory name derived from the archive
    filename ([build/project.py] is not among the sources): the filename
    without its archive extension. *)
Definition archive_stem (filename : string) : option string :=
  first_stem archive_extensions filename.

(** Modelled from the spec: the archive filename of a descriptor
    ([build/project.py] is not among the sources): the last path component
    of its first location. *)
Definition archive_filename (d : project) : option string :=
  basename <$> head (locations d).

(** Modelled from the spec: [extract(archivePath, expectedRootOverride)] of
    section 4.2, reduced to the choice of the working tree's root directory.
    [top_level] lists the archive's own top-level entries.  An override
    decides the name; without one the archive's single top-level entry is
    the name, and it has to agree with the name derived from the archive
    filename, else the extraction fails. *)
Definition extract (top_level : list string) (d : project)
  : extraction_error + string :=
  match base d with
  | Some override => inr override
  | None =>
      match top_level, archive_filename d ≫= archive_stem with
      | [root], Some stem =>
          if decide (root = stem) then inr root else inl ExtractionError
      | _, _ => inl ExtractionError
      end
  end.

(** *** Build adapters *)

(** Modelled from the spec: the toolchain context of sections 3 and 4.4
    (the toolchain module is not among the sources), an opaque handle to the
    adapters. *)
Record toolchain : Set := {
  compiler : string;
  host_triplet : option string;
  sysroot : option string;
  jobs : nat;
  environment : list (string * string);
  install_prefix : string
}.

(** Modelled from the spec: the commands of the uniform build sequence of
    section 4.3 (the adapter modules are not among the sources). *)
Inductive build_step : Set :=
  | Bootstrap
  | Configure (argv : list string)
  | Compile (parallel : nat)
  | Install (prefix : string)
  | VerifyArtifact (path : string).

#[global] Instance build_step_eq_dec : EqDecision build_step.
Proof. solve_decision. Defined.

Section Adapters.
(** What an adapter invokes to configure (a generator, a [configure]
    script, a script of its own) and how it renders the toolchain handle
    in the idiom of its build system are left to the adapter. *)
Variable configure_program : project_class → string.
Variable toolchain_flags : project_class → toolchain → list string.

(** Modelled from the spec: the bootstrap decision of section 4.3 (the
    adapter modules are not among the sources).  The CMake-style adapter
    has no bootstrap step; the others run it when the descriptor asks. *)
Definition bootstraps (d : project) : bool :=
  match kind d with
  | CmakeProject => false
  | _ => autoreconf d
  end.

(** Modelled from the spec: the configure command line of section 4.3,
    step 2: the program, the toolchain's flags, then the descriptor's
    argument list appended verbatim and in order. *)
Definition configure_argv (d : project) (tc : toolchain) : list string :=
  configure_program (kind d)
  :: toolchain_flags (kind d) tc ++ default [] (arguments d).

(** Modelled from the spec: the build sequence of section 4.3: optional
    bootstrap, configure, compile with the toolchain's parallelism,
    install into the prefix, check of the declared artifact. *)
Definition build_steps (d : project) (tc : toolchain) : list build_step :=
  (if bootstraps d then [Bootstrap] else [])
  ++ [ Configure (configure_argv d tc);
       Compile (jobs tc);
       Install (install_prefix tc);
       VerifyArtifact (install_prefix tc +:+ "/" +:+ artifact d) ].
End Adapters.

(** ** Properties stated over the table *)

(** A patch-set reference is an explicit sequence when it is a list or a
    tuple; a string names a directory to be scanned. *)
Definition is_sequence (v : pyval) : Prop :=
  match v with
  | PyList _ | PyTuple _ => True
  | PyStr _ | PyBool _ => False
  end.

#[global] Instance is_sequence_dec (v : pyval) : Decision (is_sequence v).
Proof. destruct v; simpl; apply _. Defined.

(** The flags by which an argument list asks for a static library only. *)
Definition requests_static (k : project_class) (flags : list string) : Prop :=
  match k with
  | CmakeProject => "-DBUILD_SHARED_LIBS=OFF" ∈ flags
  | AutotoolsProject | FfmpegProject =>
      "--disable-shared" ∈ flags ∧ "--enable-static" ∈ flags
  | ZlibProject | Project => False
  end.

#[global] Instance requests_static_dec (k : project_class) (flags : list string) :
  Decision (requests_static k flags).
Proof. destruct k; simpl; apply _. Defined.

(** What a descriptor's argument list, or its absence, has to look like for
    a static-only build: the flags of its build-system family when there is
    a list, and only the bespoke zlib adapter may go without one. *)
Definition static_only (d : project) : Prop :=
  match arguments d with
  | Some flags => requests_static (kind d) flags
  | None => kind d = ZlibProject
  end.

#[global] Instance static_only_dec (d : project) : Decision (static_only d).
Proof. unfold static_only. destruct (arguments d); apply _. Defined.

(** ** Further predicates on the table *)

(** The flags a descriptor passes to its configure step: its argument
    list, nothing when the call has none. *)
Definition flags_of (d : project) : list string := default [] (arguments d).

Definition is_lower_hex_digit (c : ascii) : bool :=
  let n := nat_of_ascii c in
  ((48 <=? n) && (n <=? 57)) || ((97 <=? n) && (n <=? 102)).

Definition is_lower_hex (s : string) : bool :=
  forallb is_lower_hex_digit (list_ascii_of_string s).

(** The characters of a word that a shell passes on untouched: letters,
    digits, and the three punctuation marks options are written with. *)
Definition is_option_char (c : ascii) : bool :=
  let n := nat_of_ascii c in
  ((48 <=? n) && (n <=? 57)) || ((65 <=? n) && (n <=? 90))
  || ((97 <=? n) && (n <=? 122))
  || bool_decide (c ∈ ["-"%char; "_"%char; "="%char]).

Definition is_option_word (s : string) : bool :=
  forallb is_option_char (list_ascii_of_string s).

(** Splitting at the first [=]: [NAME=VALUE] gives [(NAME, VALUE)]. *)
Fixpoint split_at_eq (s : string) : option (string * string) :=
  match s with
  | EmptyString => None
  | String c s' =>
      if decide (c = "="%char) then Some (EmptyString, s')
      else (λ nv, (String c nv.1, nv.2)) <$> split_at_eq s'
  end.

(** The text of an option before its first [=]; the whole option when it
    has none. *)
Definition option_name (f : string) : string :=
  from_option fst f (split_at_eq f).

(** A CMake cache definition [-DNAME=VALUE] with a boolean value. *)
Definition cmake_switch (f : string) : option (string * string) :=
  nv ← strip_prefix "-D" f ≫= split_at_eq;
  if bool_decide (nv.1 ≠ EmptyString ∧ nv.2 ∈ ["ON"; "OFF"])
  then Some nv else None.

(** The switches of a configure script, and the feature an option names
    after one of them. *)
Definition configure_switches : list string :=
  ["--enable-"; "--disable-"; "--without-"].

Fixpoint switched_feature (switches : list string) (f : string)
  : option (string * string) :=
  match switches with
  | [] => None
  | sw :: rest =>
      match strip_prefix sw f with
      | Some x => if decide (x = EmptyString) then switched_feature rest f
                  else Some (sw, x)
      | None => switched_feature rest f
      end
  end.

(** A list of strings without repetition, checked by comparison of each
    element with the ones after it. *)
Fixpoint nodupb (l : list string) : bool :=
  match l with
  | [] => true
  | x :: rest => negb (existsb (String.eqb x) rest) && nodupb rest
  end.

(** No feature is both enabled and disabled by one list. *)
Definition consistent_flags (flags : list string) : bool :=
  forallb (λ f, match strip_prefix "--enable-" f with
                | Some x => negb (bool_decide ("--disable-" +:+ x ∈ flags))
                | None => true
                end) flags.

(** The two URL schemes of the table and the two archive extensions. *)
Definition is_web_url (u : string) : bool :=
  bool_decide (is_Some (strip_prefix "http://" u))
  || bool_decide (is_Some (strip_prefix "https://" u)).

Definition is_tarball (u : string) : bool :=
  bool_decide (is_Some (strip_suffix ".tar.gz" u))
  || bool_decide (is_Some (strip_suffix ".tar.xz" u)).

(** ** Lemmas on the string functions *)

Lemma append_cons (c : ascii) (a b : string) :
  String c a +:+ b = String c (a +:+ b).
Proof. reflexivity. Qed.

Lemma append_nil (b : string) : EmptyString +:+ b = b.
Proof. reflexivity. Qed.

Lemma strip_prefix_sound (p s r : string) :
  strip_prefix p s = Some r → s = p +:+ r.
Proof.
  revert s; induction p as [|a p IH]; intros [|b s] H; simpl in *;
    try case_decide; simplify_eq; try done.
  rewrite append_cons. f_equal. by apply IH.
Qed.

Lemma strip_prefix_complete (p r : string) : strip_prefix p (p +:+ r) = Some r.
Proof.
  induction p as [|a p IH]; [done|].
  rewrite append_cons. simpl. by rewrite decide_True.
Qed.

Lemma strip_suffix_sound (suf s r : string) :
  strip_suffix suf s = Some r → s = r +:+ suf.
Proof.
  revert r; induction s as [|c s IH]; intros r; simpl.
  - case_decide; [|done]. intros [= <-]. by subst.
  - case_decide.
    + intros [= <-]. by subst.
    + destruct (strip_suffix suf s) as [r'|] eqn:E; [|done].
      intros [= <-]. rewrite append_cons. f_equal. by apply IH.
Qed.

Lemma length_app_string (a b : string) :
  String.length (a +:+ b) = String.length a + String.length b.
Proof.
  induction a as [|c a IH]; [done|].
  rewrite append_cons. simpl. by rewrite IH.
Qed.

Lemma strip_suffix_complete (suf r : string) :
  strip_suffix suf (r +:+ suf) = Some r.
Proof.
  induction r as [|c r IH].
  - rewrite append_nil. destruct suf; simpl; [done|]. by rewrite decide_True.
  - rewrite append_cons. simpl. rewrite decide_False.
    + by rewrite IH.
    + intros E. apply (f_equal String.length) in E. simpl in E.
      rewrite length_app_string in E. lia.
Qed.

Lemma static_library_name_sound (p n : string) :
  static_library_name p = Some n →
  p = "lib/" +:+ n +:+ ".a" ∧ n ≠ EmptyString ∧ has_slash n = false.
Proof.
  unfold static_library_name.
  destruct (strip_prefix "lib/" p) as [q|] eqn:Ep; [|done].
  cbn [mbind option_bind].
  destruct (strip_suffix ".a" q) as [m|] eqn:Es; [|done].
  cbn [mbind option_bind].
  destruct (bool_decide (m = EmptyString)) eqn:Em; [done|].
  destruct (has_slash m) eqn:Eh; [done|].
  intros [= <-].
  apply strip_prefix_sound in Ep. apply strip_suffix_sound in Es.
  apply bool_decide_eq_false in Em. by subst.
Qed.

Lemma basename_no_slash (p : string) : has_slash (basename p) = false.
Proof.
  induction p as [|c p IH]; [done|]. simpl.
  destruct (has_slash p) eqn:E; [done|].
  case_decide; [done|].
  unfold has_slash in *. simpl. rewrite E.
  by case_bool_decide.
Qed.

Lemma nodupb_sound (l : list string) : nodupb l = true → NoDup l.
Proof.
  induction l as [|x l IH]; simpl; [constructor|].
  intros H. apply andb_true_iff in H as [Hx Hl].
  constructor; [|by apply IH].
  intros Hin. apply negb_true_iff in Hx.
  assert (existsb (String.eqb x) l = true) as E; [|congruence].
  apply existsb_exists. exists x. split; [by apply list_elem_of_In|].
  apply String.eqb_refl.
Qed.

(** ** The registry is well formed *)

(** The table is finite and closed, so its decidable properties are settled
    by evaluating their decision procedure. *)
Ltac by_evaluation := apply (bool_decide_unpack _); vm_compute; exact I.

(** Every call of the module binds, so the registry has one descriptor per
    assignment. *)
Lemma registry_names :
  registry.*1 =
  ["libsamplerate"; "zlib"; "libmodplug"; "libopenmpt"; "wildmidi"; "gme";
   "ffmpeg"; "libnfs"].
Proof. by vm_compute. Qed.

Lemma registry_names_unique : NoDup registry.*1.
Proof. rewrite registry_names. by_evaluation. Qed.

Lemma registry_binds_all : registry.*1 = libs.*1.
Proof. by vm_compute. Qed.

(** A descriptor's fields are the arguments of its call: the class, the
    second and third positional arguments, the [patches] keyword. *)
Lemma bind_fields (c : call) (d : project) :
  bind c = Some d →
  kind d = ctor c
  ∧ args c !! 1 = Some (PyStr (digest d))
  ∧ args c !! 2 = Some (PyStr (artifact d))
  ∧ patches d = keyword "patches" (kwargs c).
Proof.
  unfold bind. intros H.
  destruct (args c) as [|loc [|[dg| | |] [|[art| | |] rest]]]; try done.
  destruct (bind_locations loc); [|done].
  destruct (bind_arguments rest); [|done].
  destruct (bind_base (kwargs c)); [|done].
  destruct (bind_autoreconf (kwargs c)); [|done].
  cbn in H. destruct (forallb _ _); [|done].
  by injection H as <-.
Qed.

(** ** The claims about the table *)

(** C1: every descriptor's digest is a literal hexadecimal string whose
    length is that of its algorithm: libsamplerate's digest has the 32
    characters of an MD5 digest, every other descriptor's the 64 characters
    of a SHA-256 digest, and both lengths occur among the eight descriptors
    (one of the first, seven of the second), so the registry exercises two
    distinct lengths. *)
Theorem digest_length_identifies_algorithm :
  Forall (λ nd, is_hex (digest nd.2) = true ∧
                String.length (digest nd.2) =
                  if decide (nd.1 = "libsamplerate")
                  then md5_hex_length else sha256_hex_length) registry
  ∧ "libsamplerate" ∈ registry.*1
  ∧ md5_hex_length = 32 ∧ sha256_hex_length = 64
  ∧ registry.*1
    = ["libsamplerate"; "zlib"; "libmodplug"; "libopenmpt"; "wildmidi"; "gme";
       "ffmpeg"; "libnfs"]
  ∧ Exists (λ nd, String.length (digest nd.2) = md5_hex_length) registry
  ∧ Exists (λ nd, String.length (digest nd.2) = sha256_hex_length) registry
  ∧ (λ nd, String.length (digest nd.2)) <$> registry
    = [32; 64; 64; 64; 64; 64; 64; 64].
Proof.
  split; [by_evaluation|]. split; [by_evaluation|].
  split; [done|]. split; [done|]. split; [by vm_compute|].
  split; [by_evaluation|]. split; [by_evaluation|]. by vm_compute.
Qed.

(** C2: the declared artifact paths of the registry are pairwise distinct,
    none lies underneath another, and each is relative: it does not begin
    with the path separator. *)
Theorem artifact_paths_disjoint :
  NoDup ((λ nd, artifact nd.2) <$> registry)
  ∧ Forall (λ a, Forall (λ b, a.1 = b.1 ∨
        strip_prefix (artifact a.2 +:+ "/") (artifact b.2) = None) registry)
      registry
  ∧ Forall (λ nd, is_relative (artifact nd.2) = true) registry.
Proof. split; [by_evaluation|]. split; by_evaluation. Qed.

(** C3: every descriptor is constructed with one of the four adapter
    classes (never the bare base class), all four occur, the ffmpeg
    descriptor is the one built with the feature-flag-heavy adapter and the
    zlib descriptor the one built with the bespoke adapter. *)
Theorem adapter_kinds :
  Forall (λ nd, kind nd.2 ∈
            [CmakeProject; AutotoolsProject; FfmpegProject; ZlibProject])
    registry
  ∧ Forall (λ k, Exists (λ nd, kind nd.2 = k) registry)
      [CmakeProject; AutotoolsProject; FfmpegProject; ZlibProject]
  ∧ Forall (λ nd, (kind nd.2 = FfmpegProject ↔ nd.1 = "ffmpeg")
                  ∧ (kind nd.2 = ZlibProject ↔ nd.1 = "zlib")) registry.
Proof. split; [by_evaluation|]. split; by_evaluation. Qed.

(** C10: every descriptor with a configuration-argument list requests
    static-only output: the CMake-style lists contain
    -DBUILD_SHARED_LIBS=OFF, the Autotools-family lists (ffmpeg's included)
    contain both --disable-shared and --enable-static; every artifact path
    has the static-library form lib/<name>.a; the zlib descriptor, built
    by the bespoke class from a call of three positional arguments, is in
    the registry and is the only one constructed without an argument list;
    the other seven, three CMake-style, three Autotools-style and ffmpeg,
    each carry a list. *)
Theorem static_only_output :
  Forall (λ nd, static_only nd.2) registry
  ∧ Forall (λ nd, arguments nd.2 = None ↔ nd.1 = "zlib") registry
  ∧ Forall (λ nd, ∃ n, artifact nd.2 = "lib/" +:+ n +:+ ".a"
                       ∧ n ≠ EmptyString ∧ has_slash n = false) registry
  ∧ registry.*1
    = ["libsamplerate"; "zlib"; "libmodplug"; "libopenmpt"; "wildmidi"; "gme";
       "ffmpeg"; "libnfs"]
  ∧ (λ nd, kind nd.2) <$> registry
    = [CmakeProject; ZlibProject; AutotoolsProject; AutotoolsProject;
       CmakeProject; CmakeProject; FfmpegProject; AutotoolsProject]
  ∧ Exists (λ nd, nd.1 = "zlib" ∧ kind nd.2 = ZlibProject
                  ∧ arguments nd.2 = None) registry
  ∧ bind zlib = descriptor "zlib" ∧ length (args zlib) = 3
  ∧ Exists (λ nd, nd.1 = "ffmpeg" ∧ kind nd.2 = FfmpegProject
                  ∧ "--disable-shared" ∈ default [] (arguments nd.2)
                  ∧ "--enable-static" ∈ default [] (arguments nd.2))
      registry
  ∧ (λ nd, length <$> arguments nd.2) <$> registry
    = [Some 3; None; Some 2; Some 14; Some 3; Some 4; Some 428; Some 6].
Proof.
  split; [by_evaluation|]. split; [by_evaluation|].
  split.
  { assert (Forall (λ nd, is_Some (static_library_name (artifact nd.2)))
              registry) as H by by_evaluation.
    eapply Forall_impl; [exact H|].
    intros nd [n Hn]. exists n. by apply static_library_name_sound. }
  split; [by vm_compute|]. split; [by vm_compute|].
  split; [by_evaluation|]. split; [by vm_compute|]. split; [done|].
  split; [by_evaluation|]. by vm_compute.
Qed.

(** ** Patch sets and root-directory overrides *)

Lemma descriptor_elem_of (n : string) (d : project) :
  descriptor n = Some d → (n, d) ∈ registry.
Proof.
  unfold descriptor. generalize registry. intros l.
  induction l as [|[n' d'] l IH]; simpl; [done|].
  case_bool_decide as E; simpl in *.
  - intros [= <-]. subst. by left.
  - intros H. right. by apply IH.
Qed.

(** C5, the claim as stated fails: libmodplug declares a patch set, and its
    reference is not an explicit sequence of patch file identifiers. *)
Lemma patch_set_reference_not_a_sequence :
  ¬ (∀ n d v, (n, d) ∈ registry → patches d = Some v → is_sequence v).
Proof.
  intros H.
  destruct (descriptor "libmodplug") as [d|] eqn:E; [|by vm_compute in E].
  apply (H "libmodplug" d (PyStr "src/lib/modplug/patches")).
  - by apply descriptor_elem_of.
  - vm_compute in E. by injection E as <-.
Qed.

(** C5, amended: exactly one descriptor of the registry, libmodplug,
    declares a patch set, and its reference is the single string
    src/lib/modplug/patches, the path of a directory, not an explicit
    sequence of patch file identifiers. *)
Theorem patch_set_is_directory_reference :
  Forall (λ nd, patches nd.2 =
                  if decide (nd.1 = "libmodplug")
                  then Some (PyStr "src/lib/modplug/patches") else None)
    registry
  ∧ "libmodplug" ∈ registry.*1
  ∧ ¬ is_sequence (PyStr "src/lib/modplug/patches").
Proof. split; [by_evaluation|]. split; [by_evaluation|]. by intros []. Qed.

(** C6, the claim as stated fails: no descriptor of the registry declares
    both a patch set and a root-directory override. *)
Lemma no_descriptor_with_patch_set_and_override :
  ¬ (∃ n d, (n, d) ∈ registry ∧ is_Some (patches d) ∧ is_Some (base d)).
Proof.
  intros (n & d & Hin & Hp & Hb).
  assert (Forall (λ nd, ¬ (is_Some (patches nd.2) ∧ is_Some (base nd.2)))
            registry) as H by by_evaluation.
  rewrite Forall_forall in H. by apply (H (n, d)).
Qed.

(** C6, amended: the patch set and the root-directory override never meet
    in one descriptor: libmodplug is the only descriptor that declares a
    patch set (a directory reference) and it declares no override;
    libopenmpt and libnfs are the only descriptors that declare an override
    and they declare no patch set. *)
Theorem patch_set_and_override_are_separate :
  Forall (λ nd, (is_Some (patches nd.2) ↔ nd.1 = "libmodplug")
                ∧ (is_Some (base nd.2) ↔ nd.1 ∈ ["libopenmpt"; "libnfs"])
                ∧ ¬ (is_Some (patches nd.2) ∧ is_Some (base nd.2)))
    registry
  ∧ ["libmodplug"; "libopenmpt"; "libnfs"] ⊆ registry.*1.
Proof. split; by_evaluation. Qed.

(** ** Fetching from mirrors *)

Section FetcherFacts.
Variable transport : string → option (list byte).
Variable file_digest : hash_algorithm → list byte → string.

(** Transfers are attempted in declared order: the attempts a fetch adds
    are a prefix of the location list. *)
Lemma transfer_declared_order (locs : list string) (dg : string) (st : fetcher) :
  ∃ k, attempted (transfer transport file_digest locs dg st).2
       = attempted st ++ take k locs.
Proof.
  revert st; induction locs as [|u locs IH]; intros st; simpl.
  - exists 0. by rewrite app_nil_r.
  - destruct (transport u) as [content|].
    + exists 1. by destruct (verify _ _ _).
    + destruct (IH {| cache := cache st; attempted := attempted st ++ [u] |})
        as [k Hk].
      exists (S k). rewrite Hk. simpl. by rewrite <- app_assoc.
Qed.

(** When every location fails the fetch ends in a [NetworkError], having
    tried them all. *)
Lemma transfer_exhausted (locs : list string) (dg : string) (st : fetcher) :
  Forall (λ u, transport u = None) locs →
  transfer transport file_digest locs dg st
  = (inl NetworkError,
     {| cache := cache st; attempted := attempted st ++ locs |}).
Proof.
  intros H; revert st; induction H as [|u locs Hu _ IH]; intros st; simpl.
  - rewrite app_nil_r. by destruct st.
  - rewrite Hu, IH. simpl. by rewrite <- app_assoc.
Qed.

(** A cached archive is returned without touching the network. *)
Lemma fetch_cached (locs : list string) (dg : string) (st : fetcher)
    (content : list byte) :
  cache st !! dg = Some content →
  fetch transport file_digest locs dg st = (inr content, st).
Proof. intros H. unfold fetch. by rewrite H. Qed.
End FetcherFacts.

(** C4: the zlib descriptor declares exactly two mirror URLs, in order, and
    a digest of SHA-256 length; a fetch of its locations with nothing cached,
    the first location unreachable and the second serving content that
    matches the declared digest, tries the first, then the second, and
    succeeds with that content, which it caches under the digest. *)
Theorem zlib_mirror_fallback
    (d : project) (u1 u2 : string)
    (transport : string → option (list byte))
    (file_digest : hash_algorithm → list byte → string)
    (st : fetcher) (content : list byte) :
  descriptor "zlib" = Some d →
  locations d !! 0 = Some u1 →
  locations d !! 1 = Some u2 →
  cache st !! digest d = None →
  transport u1 = None →
  transport u2 = Some content →
  file_digest SHA256 content = digest d →
  locations d = [u1; u2]
  ∧ String.length (digest d) = sha256_hex_length
  ∧ fetch transport file_digest (locations d) (digest d) st
    = (inr content,
       {| cache := <[digest d := content]> (cache st);
          attempted := attempted st ++ [u1; u2] |}).
Proof.
  intros Hd H0 H1 Hc Ht1 Ht2 Hh.
  vm_compute in Hd. injection Hd as <-.
  cbn [locations digest] in *.
  injection H0 as <-. injection H1 as <-.
  split; [done|]. split; [done|].
  unfold fetch. rewrite Hc. cbn [transfer]. rewrite Ht1.
  cbn [attempted cache]. rewrite Ht2.
  unfold verify.
  replace (guess_hash _) with (Some SHA256) by (by vm_compute).
  rewrite Hh, bool_decide_eq_true_2 by done.
  cbn [attempted cache]. by rewrite <- app_assoc.
Qed.

Lemma zlib_mirror_fallback_witness :
  let d := {| kind := ZlibProject;
              locations :=
                ["http://zlib.net/zlib-1.3.1.tar.xz";
                 "https://github.com/madler/zlib/releases/download/v1.3.1/zlib-1.3.1.tar.xz"];
              digest := "38ef96b8dfe510d42707d9c781877914792541133e1870841463bfa73f883e32";
              artifact := "lib/libz.a";
              arguments := None; patches := None; base := None;
              autoreconf := false |} in
  let u1 := "http://zlib.net/zlib-1.3.1.tar.xz" in
  let u2 := "https://github.com/madler/zlib/releases/download/v1.3.1/zlib-1.3.1.tar.xz" in
  let transport := λ u, if decide (u = u2) then Some [x00; x01] else None in
  let file_digest := λ (alg : hash_algorithm) (content : list byte),
         match alg, content with
         | SHA256, [_; _] => digest d
         | _, _ => EmptyString
         end in
  let st := {| cache := ∅; attempted := [] |} in
  descriptor "zlib" = Some d
  ∧ fetch transport file_digest (locations d) (digest d) st
    = (inr [x00; x01],
       {| cache := <[digest d := [x00; x01]]> ∅; attempted := [u1; u2] |}).
Proof.
  intros d u1 u2 transport file_digest st.
  split; [reflexivity|].
  apply (zlib_mirror_fallback d u1 u2 transport file_digest st [x00; x01]);
    reflexivity.
Defined.

(** ** The root directory of the extracted tree *)

Lemma extract_with_override (top : list string) (d : project) (o : string) :
  base d = Some o → extract top d = inr o.
Proof. intros H. unfold extract. by rewrite H. Qed.

Lemma extract_without_override (d : project) (stem : string) :
  base d = None →
  archive_filename d ≫= archive_stem = Some stem →
  extract [stem] d = inr stem
  ∧ ∀ top r, extract top d = inr r → r = stem.
Proof.
  intros Hb Hs. unfold extract. rewrite Hb, Hs. split.
  - by rewrite decide_True.
  - intros [|root [|??]] r; try done.
    case_decide; [|done]. intros [= <-]. done.
Qed.

Lemma extract_mismatch (d : project) (stem : string) (top : list string) :
  base d = None →
  archive_filename d ≫= archive_stem = Some stem →
  top ≠ [stem] → extract top d = inl ExtractionError.
Proof.
  intros Hb Hs Hne. unfold extract. rewrite Hb, Hs.
  destruct top as [|root [|??]]; try done.
  case_decide; [|done]. by subst.
Qed.

(** A stem is the filename without one of the extensions: putting the
    extension back gives the filename. *)
Lemma first_stem_sound (exts : list string) (f stem : string) :
  first_stem exts f = Some stem →
  stem ≠ EmptyString ∧ ∃ ext, ext ∈ exts ∧ f = stem +:+ ext.
Proof.
  induction exts as [|e rest IH]; simpl; [done|].
  destruct (strip_suffix e f) as [r|] eqn:E.
  - case_decide as Er.
    + intros H. destruct (IH H) as (? & ext & ? & ?).
      split; [done|]. exists ext. split; [by right|done].
    + intros [= <-]. apply strip_suffix_sound in E.
      split; [done|]. exists e. split; [by left|done].
  - intros H. destruct (IH H) as (? & ext & ? & ?).
    split; [done|]. exists ext. split; [by right|done].
Qed.

(** C7: a descriptor that sets the root-directory override names a
    directory different from the one derived from its archive filename (the
    filename is not even the override followed by an extension), and
    extraction uses the override; libopenmpt's override names version 0.7.3
    where the archive filename names 0.7.4, libnfs's override is
    libnfs-libnfs-5.0.3 where the archive is libnfs-5.0.3.tar.gz; for a
    descriptor without the override the root directory is the stem of the
    archive filename, the filename without its non-empty archive extension
    (zlib-1.3.1 for zlib-1.3.1.tar.xz), and an archive whose top level is
    anything else fails to extract. *)
Theorem root_directory_override :
  Forall (λ nd, ∃ f stem,
      archive_filename nd.2 = Some f
      ∧ Forall (λ u, basename u = f) (locations nd.2)
      ∧ archive_stem f = Some stem
      ∧ match base nd.2 with
        | Some override =>
            override ≠ stem
            ∧ (∀ ext, f ≠ override +:+ ext)
            ∧ ∀ top, extract top nd.2 = inr override
        | None =>
            extract [stem] nd.2 = inr stem
            ∧ ∀ top r, extract top nd.2 = inr r → r = stem
        end
      ∧ stem ≠ EmptyString
      ∧ (∃ ext, ext ∈ archive_extensions ∧ ext ≠ EmptyString
                ∧ f = stem +:+ ext)
      ∧ (base nd.2 = None →
         ∀ top, top ≠ [stem] → extract top nd.2 = inl ExtractionError))
    registry
  ∧ Forall (λ nd, is_Some (base nd.2) ↔ nd.1 ∈ ["libopenmpt"; "libnfs"])
      registry
  ∧ (∃ d, descriptor "libopenmpt" = Some d
          ∧ base d = Some "libopenmpt-0.7.3+release.autotools"
          ∧ archive_filename d
            = Some "libopenmpt-0.7.4+release.autotools.tar.gz")
  ∧ (∃ d, descriptor "libnfs" = Some d
          ∧ base d = Some "libnfs-libnfs-5.0.3"
          ∧ archive_filename d = Some "libnfs-5.0.3.tar.gz")
  ∧ registry.*1
    = ["libsamplerate"; "zlib"; "libmodplug"; "libopenmpt"; "wildmidi"; "gme";
       "ffmpeg"; "libnfs"]
  ∧ (λ nd, archive_filename nd.2 ≫= archive_stem) <$> registry
    = [Some "libsamplerate-0.2.2"; Some "zlib-1.3.1";
       Some "libmodplug-0.8.9.0"; Some "libopenmpt-0.7.4+release.autotools";
       Some "wildmidi-0.4.5"; Some "game-music-emu-0.6.3";
       Some "ffmpeg-6.1.1"; Some "libnfs-5.0.3"]
  ∧ (∃ d, descriptor "zlib" = Some d
          ∧ extract ["zlib-1.3.1"] d = inr "zlib-1.3.1"
          ∧ extract ["zlib-1.3.1.tar.xz"] d = inl ExtractionError
          ∧ extract [] d = inl ExtractionError)
  ∧ (∃ d, descriptor "libnfs" = Some d
          ∧ extract ["libnfs-5.0.3"] d = inr "libnfs-libnfs-5.0.3"
          ∧ extract ["libnfs-libnfs-5.0.3"] d = inr "libnfs-libnfs-5.0.3").
Proof.
  split; [|split; [by_evaluation|]].
  2: { split; [by eexists|]. split; [by eexists|].
       split; [by vm_compute|]. split; [by vm_compute|].
       split; by eexists. }
  assert (Forall (λ nd,
      is_Some (archive_filename nd.2 ≫= archive_stem)
      ∧ Forall (λ u, Some (basename u) = archive_filename nd.2)
          (locations nd.2)
      ∧ base nd.2 ≠ archive_filename nd.2 ≫= archive_stem
      ∧ (o ← base nd.2; f ← archive_filename nd.2; strip_prefix o f) = None)
    registry) as H by by_evaluation.
  eapply Forall_impl; [exact H|]. clear H.
  intros [n d] ([stem Hs] & Hl & Hne & Hp). cbn [snd] in *.
  destruct (archive_filename d) as [f|] eqn:Ef; [|done].
  change (archive_stem f = Some stem) in Hs. exists f, stem.
  split; [done|]. split.
  { eapply Forall_impl; [exact Hl|]. by intros u [= ->]. }
  split; [done|].
  destruct (first_stem_sound archive_extensions f stem Hs)
    as (Hstem & ext & Hext & Hf).
  assert (Forall (λ e, e ≠ EmptyString) archive_extensions) as Hexts
    by by_evaluation.
  rewrite Forall_forall in Hexts.
  split; [|split; [done|split; [by exists ext; auto|]]].
  - destruct (base d) as [o|] eqn:Eb.
    + split; [by intros ->|]. split.
      * intros ext' ->. cbn in Hp. by rewrite strip_prefix_complete in Hp.
      * intros top. by apply extract_with_override.
    + apply extract_without_override; [done|]. by rewrite Ef.
  - intros Hb top Htop. apply (extract_mismatch d stem); [done| |done].
    by rewrite Ef.
Qed.

(** ** The build sequence *)

Lemma bind_autoreconf_default (c : call) (d : project) :
  keyword "autoreconf" (kwargs c) = None → bind c = Some d →
  autoreconf d = false.
Proof.
  intros Hk Hb. unfold bind, bind_autoreconf in Hb. rewrite Hk in Hb.
  repeat case_match; simplify_option_eq; done.
Qed.

Lemma bootstrap_in_build_steps
    (program : project_class → string)
    (tflags : project_class → toolchain → list string)
    (d : project) (tc : toolchain) :
  Bootstrap ∈ build_steps program tflags d tc ↔ bootstraps d = true.
Proof.
  unfold build_steps. destruct (bootstraps d); simpl.
  - split; [done|]. intros _. by left.
  - split; [|done]. intros H.
    repeat (apply elem_of_cons in H as [H|H]; [done|]).
    by apply elem_of_nil in H.
Qed.

Lemma bootstraps_requested (d : project) :
  bootstraps d = true → autoreconf d = true.
Proof. unfold bootstraps. by destruct (kind d). Qed.

Lemma configure_in_build_steps
    (program : project_class → string)
    (tflags : project_class → toolchain → list string)
    (d : project) (tc : toolchain) (argv : list string) :
  Configure argv ∈ build_steps program tflags d tc
  ↔ argv = configure_argv program tflags d tc.
Proof.
  unfold build_steps. split.
  - intros H. apply elem_of_app in H as [H|H].
    + destruct (bootstraps d).
      * by apply list_elem_of_singleton in H.
      * by apply elem_of_nil in H.
    + apply elem_of_cons in H as [[= ->]|H]; [done|].
      repeat (apply elem_of_cons in H as [H|H]; [done|]).
      by apply elem_of_nil in H.
  - intros ->. apply elem_of_app. right. by left.
Qed.

(** C8: the reconfigure-from-scratch flag is optional and absent by
    default; exactly one call of the table passes it, libnfs, an
    Autotools-family descriptor, every other call omits it; and the build
    sequence contains the bootstrap step only for a descriptor that requests
    it, which in the registry is libnfs alone. *)
Theorem autoreconf_only_libnfs :
  Forall (λ nc, is_Some (keyword "autoreconf" (kwargs nc.2))
                ↔ nc.1 = "libnfs") libs
  ∧ Forall (λ nd, autoreconf nd.2 = true ↔ nd.1 = "libnfs") registry
  ∧ (∃ d, descriptor "libnfs" = Some d ∧ kind d = AutotoolsProject
          ∧ autoreconf d = true)
  ∧ (∀ c d, keyword "autoreconf" (kwargs c) = None → bind c = Some d →
            autoreconf d = false)
  ∧ (∀ program tflags d tc,
       Bootstrap ∈ build_steps program tflags d tc → autoreconf d = true)
  ∧ Forall (λ nd, ∀ program tflags tc,
              Bootstrap ∈ build_steps program tflags nd.2 tc
              ↔ nd.1 = "libnfs") registry.
Proof.
  split; [by_evaluation|]. split; [by_evaluation|].
  split; [by eexists|]. split; [exact bind_autoreconf_default|].
  split.
  - intros program tflags d tc H.
    by apply bootstraps_requested, (bootstrap_in_build_steps program tflags d tc).
  - assert (Forall (λ nd, bootstraps nd.2 = true ↔ nd.1 = "libnfs") registry)
      as H by by_evaluation.
    eapply Forall_impl; [exact H|].
    intros nd Hnd program tflags tc.
    by rewrite bootstrap_in_build_steps.
Qed.

Lemma bind_arguments_field (c : call) (d : project) (flags : list string) :
  bind c = Some d → arguments d = Some flags →
  args c !! 3 = Some (PyList flags) ∧ length (args c) = 4.
Proof.
  unfold bind. intros H Ha.
  destruct (args c) as [|loc [|[dg| | |] [|[art| | |] rest]]]; try done.
  destruct (bind_locations loc); [|done].
  destruct (bind_arguments rest) as [fl|] eqn:Er; [|done].
  destruct (bind_base (kwargs c)); [|done].
  destruct (bind_autoreconf (kwargs c)); [|done].
  cbn in H. destruct (forallb _ _); [|done].
  injection H as <-. cbn in Ha. subst fl.
  destruct rest as [|[| | |fl] [|??]]; try done.
  by injection Er as ->.
Qed.

(** C9: the ffmpeg descriptor's argument list is the list written in the
    ffmpeg call, several hundred (428) strings from --disable-shared to
    --disable-bsf=vp9_superframe_split, and the configure invocation built
    from it is the program, the toolchain's flags and then exactly that
    list, every argument in its declared place: none dropped, reordered,
    deduplicated or truncated; it is the only configure invocation of the
    build sequence. *)
Theorem ffmpeg_arguments_pass_through :
  ∃ d flags,
    descriptor "ffmpeg" = Some d
    ∧ kind d = FfmpegProject
    ∧ arguments d = Some flags
    ∧ length flags = 428
    ∧ (∀ program tflags tc,
        flags `suffix_of` configure_argv program tflags d tc
        ∧ (∀ i a, flags !! i = Some a →
             configure_argv program tflags d tc
               !! (length (configure_argv program tflags d tc) - 428 + i)
             = Some a)
        ∧ (∀ argv, Configure argv ∈ build_steps program tflags d tc
                   ↔ argv = configure_argv program tflags d tc))
    ∧ bind ffmpeg = Some d
    ∧ args ffmpeg !! 3 = Some (PyList flags)
    ∧ flags !! 0 = Some "--disable-shared"
    ∧ flags !! 1 = Some "--enable-static"
    ∧ flags !! 427 = Some "--disable-bsf=vp9_superframe_split"
    ∧ NoDup flags
    ∧ ∀ program tflags tc,
        configure_argv program tflags d tc
        = program FfmpegProject :: tflags FfmpegProject tc ++ flags
        ∧ length (configure_argv program tflags d tc)
          = 1 + length (tflags FfmpegProject tc) + 428
        ∧ last (configure_argv program tflags d tc)
          = Some "--disable-bsf=vp9_superframe_split"
        ∧ build_steps program tflags d tc
          = [ Configure (program FfmpegProject
                         :: tflags FfmpegProject tc ++ flags);
              Compile (jobs tc);
              Install (install_prefix tc);
              VerifyArtifact (install_prefix tc +:+ "/lib/libavcodec.a") ].
Proof.
  destruct (descriptor "ffmpeg") as [d|] eqn:E; [|by vm_compute in E].
  destruct (arguments d) as [flags|] eqn:Ea;
    [|vm_compute in E; injection E as <-; done].
  assert (length flags = 428) as Hlen.
  { vm_compute in E. injection E as <-. by injection Ea as <-. }
  assert (bind ffmpeg = Some d) as Hbind.
  { rewrite <- E. by vm_compute. }
  assert (kind d = FfmpegProject) as Hkind.
  { vm_compute in E. by injection E as <-. }
  assert (flags !! 0 = Some "--disable-shared"
          ∧ flags !! 1 = Some "--enable-static"
          ∧ flags !! 427 = Some "--disable-bsf=vp9_superframe_split"
          ∧ last flags = Some "--disable-bsf=vp9_superframe_split"
          ∧ nodupb flags = true) as (Hf0 & Hf1 & Hf427 & Hlast & Hnd).
  { vm_compute in E. injection E as <-. injection Ea as <-.
    repeat split; by vm_compute. }
  assert (artifact d = "lib/libavcodec.a"
          ∧ bootstraps d = false) as [Hart Hboot].
  { vm_compute in E. by injection E as <-. }
  exists d, flags. split; [done|].
  split; [done|]. split; [done|]. split; [done|].
  assert (∀ program tflags tc, configure_argv program tflags d tc
          = (program (kind d) :: tflags (kind d) tc) ++ flags) as Hargv.
  { intros. unfold configure_argv. by rewrite Ea. }
  split.
  { intros program tflags tc. split; [|split].
    - rewrite Hargv. by eexists.
    - intros i a Hi. rewrite Hargv, length_app, Hlen.
      rewrite lookup_app_r by lia.
      by replace (_ - _) with i by lia.
    - apply configure_in_build_steps. }
  split; [done|].
  split; [by apply (bind_arguments_field ffmpeg d flags)|].
  split; [done|]. split; [done|]. split; [done|].
  split; [by apply nodupb_sound|].
  intros program tflags tc.
  split; [by rewrite Hargv, Hkind|].
  split; [rewrite Hargv, Hkind, length_app, Hlen; cbn [length]; lia|].
  split.
  - rewrite Hargv. destruct flags as [|a flags']; [done|].
    by rewrite last_app_cons.
  - unfold build_steps. rewrite Hboot, Hart, Hargv, Hkind. done.
Qed.

(** ** Further invariants of the table *)

Lemma split_at_eq_sound (s n v : string) :
  split_at_eq s = Some (n, v) → s = n +:+ "=" +:+ v.
Proof.
  revert n; induction s as [|c s IH]; intros n; simpl; [done|].
  case_decide as Ec.
  - intros [= <- <-]. by subst.
  - destruct (split_at_eq s) as [[n' v']|] eqn:E; [|done].
    intros [= <- <-]. rewrite append_cons. f_equal. by apply IH.
Qed.

Lemma cmake_switch_sound (f n v : string) :
  cmake_switch f = Some (n, v) →
  f = "-D" +:+ n +:+ "=" +:+ v ∧ n ≠ EmptyString ∧ v ∈ ["ON"; "OFF"].
Proof.
  unfold cmake_switch.
  destruct (strip_prefix "-D" f) as [r|] eqn:Ep; [|done].
  cbn [mbind option_bind].
  destruct (split_at_eq r) as [[n' v']|] eqn:Es; [|done].
  cbn [mbind option_bind]. case_bool_decide as Eb; [|done].
  intros [= <- <-]. cbn [fst snd] in Eb.
  apply strip_prefix_sound in Ep. apply split_at_eq_sound in Es.
  by subst.
Qed.

Lemma switched_feature_sound (switches : list string) (f sw x : string) :
  switched_feature switches f = Some (sw, x) →
  sw ∈ switches ∧ f = sw +:+ x ∧ x ≠ EmptyString.
Proof.
  induction switches as [|s rest IH]; simpl; [done|].
  destruct (strip_prefix s f) as [y|] eqn:E.
  - case_decide as Ey.
    + intros H. destruct (IH H) as (? & ? & ?). split; [by right|done].
    + intros [= <- <-]. apply strip_prefix_sound in E.
      split; [by left|done].
  - intros H. destruct (IH H) as (? & ? & ?). split; [by right|done].
Qed.

Lemma consistent_flags_sound (flags : list string) (x : string) :
  consistent_flags flags = true →
  "--enable-" +:+ x ∈ flags → "--disable-" +:+ x ∉ flags.
Proof.
  unfold consistent_flags. rewrite forallb_forall. intros H He Hd.
  apply list_elem_of_In in He. specialize (H _ He).
  rewrite strip_prefix_complete in H.
  by rewrite bool_decide_eq_true_2 in H.
Qed.

Lemma is_web_url_sound (u : string) :
  is_web_url u = true → ∃ r, u = "http://" +:+ r ∨ u = "https://" +:+ r.
Proof.
  unfold is_web_url. intros H. apply orb_true_iff in H as [H|H];
    apply bool_decide_eq_true in H as [r Hr];
    apply strip_prefix_sound in Hr; exists r; [by left|by right].
Qed.

Lemma is_tarball_sound (u : string) :
  is_tarball u = true → ∃ s, u = s +:+ ".tar.gz" ∨ u = s +:+ ".tar.xz".
Proof.
  unfold is_tarball. intros H. apply orb_true_iff in H as [H|H];
    apply bool_decide_eq_true in H as [s Hs];
    apply strip_suffix_sound in Hs; exists s; [by left|by right].
Qed.

(** [basename] keeps the end of the path: what it drops is empty or a
    directory part closed by a slash. *)
Lemma basename_suffix (p : string) :
  ∃ dir, p = dir +:+ basename p
         ∧ (dir = EmptyString ∨ ∃ d, dir = d +:+ "/").
Proof.
  induction p as [|c p (dir & Hp & Hdir)]; [by exists EmptyString; auto|].
  simpl. destruct (has_slash p) eqn:Es.
  - exists (String c dir). rewrite append_cons. split; [by f_equal|].
    right. destruct Hdir as [->|[d ->]].
    + rewrite append_nil in Hp.
      assert (has_slash (basename p) = false) as Hb by apply basename_no_slash.
      rewrite <- Hp in Hb. congruence.
    + by exists (String c d).
  - case_decide as Ec.
    + subst c. exists "/". split; [done|]. right. by exists EmptyString.
    + exists EmptyString. by split; [|left].
Qed.

(** X1: the module binds eight distinct names, so no assignment overwrites
    an earlier one; no call repeats a keyword or uses one besides base,
    patches and autoreconf, and only calls of the Autotools class pass
    keywords at all. *)
Theorem bindings_well_formed :
  NoDup libs.*1
  ∧ length libs = 8
  ∧ Forall (λ nc, NoDup (kwargs nc.2).*1
                  ∧ Forall (λ k, k ∈ ["base"; "patches"; "autoreconf"])
                      (kwargs nc.2).*1
                  ∧ (kwargs nc.2 = [] ∨ ctor nc.2 = AutotoolsProject)) libs.
Proof. split; [by_evaluation|]. split; [done|]. by_evaluation. Qed.

(** X2: the digests of the registry are pairwise distinct and written in
    lower-case hexadecimal, the form a computed hex digest has. *)
Theorem digests_distinct_lower_hex :
  NoDup ((λ nd, digest nd.2) <$> registry)
  ∧ Forall (λ nd, is_lower_hex (digest nd.2) = true) registry.
Proof. split; by_evaluation. Qed.

(** X3: every descriptor has at least one location; every location is an
    http or https URL that ends in .tar.gz or .tar.xz; and the mirrors of
    one descriptor all name the same archive file. *)
Theorem locations_are_archive_urls :
  Forall (λ nd,
      locations nd.2 ≠ []
      ∧ (∃ file, Forall (λ u, basename u = file) (locations nd.2))
      ∧ Forall (λ u, (∃ r, u = "http://" +:+ r ∨ u = "https://" +:+ r)
                     ∧ (∃ s, u = s +:+ ".tar.gz" ∨ u = s +:+ ".tar.xz"))
          (locations nd.2)) registry.
Proof.
  assert (Forall (λ nd,
      locations nd.2 ≠ []
      ∧ Forall (λ u, Some (basename u) = basename <$> head (locations nd.2))
          (locations nd.2)
      ∧ Forall (λ u, is_web_url u = true ∧ is_tarball u = true)
          (locations nd.2)) registry) as H by by_evaluation.
  eapply Forall_impl; [exact H|]. clear H.
  intros [n d] (Hne & Hsame & Hurl). cbn [snd] in *.
  split; [done|]. split.
  - destruct (locations d) as [|u0 us]; [done|]. exists (basename u0).
    eapply Forall_impl; [exact Hsame|]. by intros u [= ->].
  - eapply Forall_impl; [exact Hurl|]. intros u [Hw Ht].
    split; [by apply is_web_url_sound|by apply is_tarball_sound].
Qed.

(** X4: the archive file names of the registry, the last path component
    of each descriptor's first location, are pairwise distinct. *)
Theorem archive_names_distinct :
  NoDup ((λ nd, basename <$> head (locations nd.2)) <$> registry)
  ∧ Forall (λ nd, is_Some (head (locations nd.2))) registry.
Proof. split; by_evaluation. Qed.

(** X5: no argument list of the registry contains the same argument twice
    (ffmpeg's 428 included), and no CMake list defines the same name
    twice. *)
Theorem argument_lists_have_no_duplicates :
  Forall (λ nd, NoDup (flags_of nd.2)
                ∧ if decide (kind nd.2 = CmakeProject)
                  then NoDup (option_name <$> flags_of nd.2) else True)
    registry.
Proof.
  assert (Forall (λ nd, nodupb (flags_of nd.2) = true) registry) as H1
    by by_evaluation.
  assert (Forall (λ nd, kind nd.2 ≠ CmakeProject
                        ∨ nodupb (option_name <$> flags_of nd.2) = true)
            registry) as H2 by by_evaluation.
  rewrite Forall_forall in H1, H2. apply Forall_forall. intros nd Hnd.
  split; [by apply nodupb_sound, H1|]. case_decide; [|done].
  destruct (H2 nd Hnd); [done|]. by apply nodupb_sound.
Qed.

(** X6: every configuration argument is one plain word of letters, digits,
    hyphens, underscores and equals signs; those of a CMake descriptor have
    the form -DNAME=ON or -DNAME=OFF, those of the other descriptors begin
    with --enable-, --disable- or --without- followed by a feature. *)
Theorem arguments_are_plain_options :
  Forall (λ nd, Forall (λ f,
      is_option_word f = true
      ∧ if decide (kind nd.2 = CmakeProject)
        then ∃ n v, f = "-D" +:+ n +:+ "=" +:+ v
                    ∧ n ≠ EmptyString ∧ v ∈ ["ON"; "OFF"]
        else ∃ sw x, sw ∈ configure_switches
                     ∧ f = sw +:+ x ∧ x ≠ EmptyString)
    (flags_of nd.2)) registry.
Proof.
  assert (Forall (λ nd, Forall (λ f,
      is_option_word f = true
      ∧ is_Some (if decide (kind nd.2 = CmakeProject) then cmake_switch f
                 else switched_feature configure_switches f))
    (flags_of nd.2)) registry) as H by by_evaluation.
  eapply Forall_impl; [exact H|]. clear H. intros [n d] H. cbn [snd] in *.
  eapply Forall_impl; [exact H|]. clear H. intros f [Hw [[a b] Hs]].
  split; [done|]. case_decide.
  - exists a, b. by apply cmake_switch_sound.
  - exists a, b. by apply switched_feature_sound.
Qed.

(** X7: no argument list contradicts itself: a descriptor that passes
    --enable-x does not also pass --disable-x. *)
Theorem enabled_never_disabled (n : string) (flags : list string) (x : string) :
  arguments <$> descriptor n = Some (Some flags) →
  "--enable-" +:+ x ∈ flags →
  "--disable-" +:+ x ∉ flags.
Proof.
  intros Hd. destruct (descriptor n) as [d|] eqn:E; [|done].
  injection Hd as Ha. apply descriptor_elem_of in E.
  assert (Forall (λ nd, consistent_flags (flags_of nd.2) = true) registry)
    as H by by_evaluation.
  rewrite Forall_forall in H. specialize (H _ E). cbn [snd] in H.
  unfold flags_of in H. rewrite Ha in H.
  by apply consistent_flags_sound.
Qed.

Lemma enabled_never_disabled_witness :
  "--enable-static" ∈ ["--disable-shared"; "--enable-static"]
  ∧ "--disable-static" ∉ ["--disable-shared"; "--enable-static"].
Proof.
  split; [by_evaluation|].
  apply (enabled_never_disabled "libmodplug"
           ["--disable-shared"; "--enable-static"] "static");
    [reflexivity|by_evaluation].
Defined.

(** X8: a weak digest never meets an unprotected transport: every
    descriptor has a digest of SHA-256 length or is fetched over https
    only; both exceptions occur, descriptors with a plain http location and
    a descriptor with a digest of MD5 length. *)
Theorem plain_http_only_with_sha256 :
  Forall (λ nd, String.length (digest nd.2) = sha256_hex_length
                ∨ Forall (λ u, ∃ r, u = "https://" +:+ r) (locations nd.2))
    registry
  ∧ Exists (λ nd, Exists (λ u, ∃ r, u = "http://" +:+ r) (locations nd.2))
      registry
  ∧ Exists (λ nd, String.length (digest nd.2) = md5_hex_length) registry.
Proof.
  split; [|split; [|by_evaluation]].
  - assert (Forall (λ nd, String.length (digest nd.2) = sha256_hex_length
        ∨ Forall (λ u, is_Some (strip_prefix "https://" u)) (locations nd.2))
      registry) as H by by_evaluation.
    eapply Forall_impl; [exact H|]. intros nd [Hl|Hs]; [by left|right].
    eapply Forall_impl; [exact Hs|]. intros u [r Hr]. exists r.
    by apply strip_prefix_sound.
  - assert (Exists (λ nd, Exists (λ u, is_Some (strip_prefix "http://" u))
        (locations nd.2)) registry) as H by by_evaluation.
    eapply Exists_impl; [exact H|]. intros nd Hnd.
    eapply Exists_impl; [exact Hnd|]. intros u [r Hr]. exists r.
    by apply strip_prefix_sound.
Qed.
